(** * cw-nfts examples: the mint and query scripts

    A shallow embedding of [examples/src/mint.ts] (the mint script and the
    query script that follows it in the same source file).

    Both scripts are straight-line asynchronous sequences of calls into the
    CosmJS SDK.  The SDK is not part of the repository: it is taken as a
    record of oracles, one per SDK entry point the scripts call, each
    returning either a value or a thrown error.  A script is a computation in
    a small monad that short-circuits on the first thrown error, the way an
    [await] on a rejected promise leaves an [async] function, and that
    records every SDK call together with its completion, and every
    [console.log], in a chronological trace. *)

From Stdlib Require Import String List ZArith Lia.
From stdpp Require Import base option list strings gmap.

Local Open Scope string_scope.
Local Open Scope list_scope.

(** ** JavaScript values *)

(** Plain JSON-like values: the message payloads the scripts build as object
    literals, and the [any] the contract query resolves to.  Objects keep
    their fields in insertion order.  Numbers are restricted to integers. *)
#[warnings="-register-all"]
Inductive json : Type :=
| JNull
| JBool (b : bool)
| JNum (n : Z)
| JStr (s : string)
| JArr (items : list json)
| JObj (fields : list (string * json)).

(** Property read [o.k] on an object literal; [None] stands for
    [undefined]. *)
Fixpoint assoc_get {A : Type} (k : string) (fields : list (string * A)) : option A :=
  match fields with
  | [] => None
  | (k', v) :: rest => if String.eqb k k' then Some v else assoc_get k rest
  end.

Definition json_get (k : string) (j : json) : option json :=
  match j with
  | JObj fields => assoc_get k fields
  | _ => None
  end.

(** [j.k1.k2...] *)
Fixpoint json_path (ks : list string) (j : json) : option json :=
  match ks with
  | [] => Some j
  | k :: ks' =>
      match json_get k j with
      | Some j' => json_path ks' j'
      | None => None
      end
  end.

(** An error value thrown inside the SDK, kept as its message. *)
Definition Error : Type := string.

(** How a call completes: it returns (a promise that resolves to) a value,
    or it throws (returns a promise that rejects with) an error. *)
Inductive completion (A : Type) : Type :=
| Returns (a : A)
| Throws (e : Error).
Arguments Returns {A} a.
Arguments Throws {A} e.

(** What leaves an [async] function: an error thrown by an SDK call, or the
    [TypeError] the runtime raises when the pattern [[{ address }]] is
    matched against an array with no first element. *)
Inductive exn : Type :=
| Thrown (e : Error)
| DestructureTypeError.

Inductive outcome (A : Type) : Type :=
| Fulfilled (a : A)
| Rejected (x : exn).
Arguments Fulfilled {A} a.
Arguments Rejected {A} x.

(** ** SDK data *)

(** [Coin] of [@cosmjs/amino]. *)
Record Coin : Type := { denom : string; amount : string }.

(** [AccountData] of [@cosmjs/launchpad]. *)
Record AccountData : Type :=
  { address : string; algo : string; pubkey : list Byte.byte }.

(** The options object [{ prefix: ... }] given to [fromMnemonic]. *)
Record Secp256k1HdWalletOptions : Type := { prefix : string }.

(** The fee argument of [execute]: a literal fee or the string ["auto"]. *)
Inductive Fee : Type :=
| FeeAuto
| FeeStd (fee_amount : list Coin) (gas : string).

(** [ExecuteResult] of [@cosmjs/cosmwasm-stargate]. *)
Record ExecuteResult : Type :=
  { height : Z; transactionHash : string; gasWanted : Z; gasUsed : Z }.

Section Scripts.

(** Opaque SDK objects: the scripts only pass them back to the SDK. *)
Context {Secp256k1HdWallet GasPrice SigningCosmWasmClient CosmWasmClient : Type}.

(** The options object [{ gasPrice: ... }] given to [connectWithSigner]. *)
Record SigningCosmWasmClientOptions : Type := { gasPrice : GasPrice }.

(** The SDK entry points the scripts call.  An argument read from
    [process.env] is an [option string]: the non-null assertion [!] of the
    source is erased at run time, so an unset variable reaches the SDK as
    [undefined].  Each entry point is called at most once in a run, so a
    function of the arguments describes any single run. *)
Record SDK : Type :=
  { fromMnemonic :
      option string -> Secp256k1HdWalletOptions -> completion Secp256k1HdWallet;
    getAccounts :
      Secp256k1HdWallet -> completion (list AccountData);
    GasPrice_fromString :
      string -> completion GasPrice;
    connectWithSigner :
      option string -> Secp256k1HdWallet -> SigningCosmWasmClientOptions ->
      completion SigningCosmWasmClient;
    execute :
      SigningCosmWasmClient -> string -> option string -> json -> Fee ->
      string -> list Coin -> completion ExecuteResult;
    connect :
      option string -> completion CosmWasmClient;
    queryContractSmart :
      CosmWasmClient -> option string -> json -> completion json }.

(** ** Traces *)

(** One entry per SDK call, with its arguments and how it completed, and
    one per [console.log], with the value logged. *)
Inductive event : Type :=
| EFromMnemonic (mnemonic : option string) (options : Secp256k1HdWalletOptions)
    (r : completion Secp256k1HdWallet)
| EGetAccounts (wallet : Secp256k1HdWallet) (r : completion (list AccountData))
| EGasPriceFromString (gas_price : string) (r : completion GasPrice)
| EConnectWithSigner (endpoint : option string) (signer : Secp256k1HdWallet)
    (options : SigningCosmWasmClientOptions) (r : completion SigningCosmWasmClient)
| EExecute (client : SigningCosmWasmClient) (senderAddress : string)
    (contractAddress : option string) (msg : json) (fee : Fee) (memo : string)
    (funds : list Coin) (r : completion ExecuteResult)
| EConnect (endpoint : option string) (r : completion CosmWasmClient)
| EQueryContractSmart (client : CosmWasmClient) (contractAddress : option string)
    (queryMsg : json) (r : completion json)
| EConsoleLog (v : json).

(** Calls that talk to the remote node.  Wallet derivation, account listing
    and gas price parsing are local computations. *)
Definition is_network_call (ev : event) : bool :=
  match ev with
  | EConnectWithSigner _ _ _ _ | EExecute _ _ _ _ _ _ _ _
  | EConnect _ _ | EQueryContractSmart _ _ _ _ => true
  | _ => false
  end.

(** Calls that open a connection to the endpoint. *)
Definition is_connection (ev : event) : bool :=
  match ev with
  | EConnectWithSigner _ _ _ _ | EConnect _ _ => true
  | _ => false
  end.

(** State-changing invocations of the contract. *)
Definition is_execute (ev : event) : bool :=
  match ev with
  | EExecute _ _ _ _ _ _ _ _ => true
  | _ => false
  end.

(** Invocations of the contract, state-changing or read-only. *)
Definition is_invocation (ev : event) : bool :=
  match ev with
  | EExecute _ _ _ _ _ _ _ _ | EQueryContractSmart _ _ _ _ => true
  | _ => false
  end.

Definition network_calls (tr : list event) : list event :=
  List.filter is_network_call tr.
Definition connections (tr : list event) : list event :=
  List.filter is_connection tr.
Definition executes (tr : list event) : list event :=
  List.filter is_execute tr.
Definition invocations (tr : list event) : list event :=
  List.filter is_invocation tr.

(** What was written to standard output, in order. *)
Fixpoint stdout (tr : list event) : list json :=
  match tr with
  | [] => []
  | EConsoleLog v :: rest => v :: stdout rest
  | _ :: rest => stdout rest
  end.

(** ** The script monad *)

Record Flow (A : Type) : Type :=
  { completed : outcome A; trace : list event }.
Arguments completed {A} _.
Arguments trace {A} _.

Definition flow_ret {A : Type} (a : A) : Flow A :=
  {| completed := Fulfilled a; trace := [] |}.

Definition flow_bind {A B : Type} (k : A -> Flow B) (m : Flow A) : Flow B :=
  match completed m with
  | Fulfilled a =>
      {| completed := completed (k a); trace := trace m ++ trace (k a) |}
  | Rejected x =>
      {| completed := Rejected x; trace := trace m |}
  end.

#[local] Instance flow_mret : MRet Flow := @flow_ret.
#[local] Instance flow_mbind : MBind Flow := @flow_bind.

(** An SDK call (awaited where it returns a promise): recorded with its
    completion; a thrown error leaves the script. *)
Definition call {A : Type} (ev : completion A -> event) (c : completion A) : Flow A :=
  {| completed := match c with
                  | Returns a => Fulfilled a
                  | Throws e => Rejected (Thrown e)
                  end;
     trace := [ev c] |}.

(** [const [{ address }] = accounts]: the first element's [address]; with
    no first element the inner pattern is matched against [undefined],
    which throws. *)
Definition destructure_first_address (accounts : list AccountData) : Flow string :=
  match accounts with
  | a :: _ => flow_ret (address a)
  | [] => {| completed := Rejected DestructureTypeError; trace := [] |}
  end.

Definition console_log (v : json) : Flow unit :=
  {| completed := Fulfilled tt; trace := [EConsoleLog v] |}.

Variable sdk : SDK.

(** ** The mint script *)

(** The object literal passed as the message of [execute]. *)
Definition mint_msg (owner : string) : json :=
  JObj [("mint",
         JObj [("extension", JObj []);
               ("owner", JStr owner);
               ("token_uri", JStr "https://alpaca.com/alpaca.jpg")])].

(** The first [async] function of the source; [env] is [process.env]
    after [dotenv.config()]. *)
Definition mint_flow (env : gmap string string) : Flow unit :=
  let options := {| prefix := "sei" |} in
  wallet ← call (EFromMnemonic (env !! "PRIVATE") options)
                (fromMnemonic sdk (env !! "PRIVATE") options);
  accounts ← call (EGetAccounts wallet) (getAccounts sdk wallet);
  address ← destructure_first_address accounts;
  price ← call (EGasPriceFromString "0.1usei") (GasPrice_fromString sdk "0.1usei");
  let coptions := {| gasPrice := price |} in
  client ← call (EConnectWithSigner (env !! "RPC") wallet coptions)
                (connectWithSigner sdk (env !! "RPC") wallet coptions);
  let msg := mint_msg address in
  let funds := [{| denom := "usei"; amount := "10000" |}] in
  result ← call (EExecute client address (env !! "CONTRACT_ADDR") msg FeeAuto "" funds)
                (execute sdk client address (env !! "CONTRACT_ADDR") msg FeeAuto "" funds);
  console_log (JStr (transactionHash result)).

(** ** The query script *)

Definition num_tokens_msg : json := JObj [("num_tokens", JObj [])].

(** The second [async] function of the source. *)
Definition query_flow (env : gmap string string) : Flow unit :=
  client ← call (EConnect (env !! "RPC")) (connect sdk (env !! "RPC"));
  result ← call (EQueryContractSmart client (env !! "CONTRACT_ADDR") num_tokens_msg)
                (queryContractSmart sdk client (env !! "CONTRACT_ADDR") num_tokens_msg);
  console_log result.

End Scripts.

Arguments completed {_ _ _ _ A} _.
Arguments trace {_ _ _ _ A} _.

(** ** Runs of the scripts *)

Section RunShapes.

Context {Secp256k1HdWallet GasPrice SigningCosmWasmClient CosmWasmClient : Type}.
Variable sdk : @SDK Secp256k1HdWallet GasPrice SigningCosmWasmClient CosmWasmClient.

Local Abbreviation flow :=
  (@Flow Secp256k1HdWallet GasPrice SigningCosmWasmClient CosmWasmClient).
Local Abbreviation sei := {| prefix := "sei" |}.
Local Abbreviation usei_10000 := [{| denom := "usei"; amount := "10000" |}].

(** The seven ways a run of the mint script can go, one per point at which
    it can stop. *)
Inductive mint_run (env : gmap string string) : flow unit -> Prop :=
| mint_run_no_wallet e :
    fromMnemonic sdk (env !! "PRIVATE") sei = Throws e ->
    mint_run env
      {| completed := Rejected (Thrown e);
         trace := [EFromMnemonic (env !! "PRIVATE") sei (Throws e)] |}
| mint_run_no_accounts w e :
    fromMnemonic sdk (env !! "PRIVATE") sei = Returns w ->
    getAccounts sdk w = Throws e ->
    mint_run env
      {| completed := Rejected (Thrown e);
         trace := [EFromMnemonic (env !! "PRIVATE") sei (Returns w);
                   EGetAccounts w (Throws e)] |}
| mint_run_empty_accounts w :
    fromMnemonic sdk (env !! "PRIVATE") sei = Returns w ->
    getAccounts sdk w = Returns [] ->
    mint_run env
      {| completed := Rejected DestructureTypeError;
         trace := [EFromMnemonic (env !! "PRIVATE") sei (Returns w);
                   EGetAccounts w (Returns [])] |}
| mint_run_bad_price w a rest e :
    fromMnemonic sdk (env !! "PRIVATE") sei = Returns w ->
    getAccounts sdk w = Returns (a :: rest) ->
    GasPrice_fromString sdk "0.1usei" = Throws e ->
    mint_run env
      {| completed := Rejected (Thrown e);
         trace := [EFromMnemonic (env !! "PRIVATE") sei (Returns w);
                   EGetAccounts w (Returns (a :: rest));
                   EGasPriceFromString "0.1usei" (Throws e)] |}
| mint_run_no_connection w a rest g e :
    fromMnemonic sdk (env !! "PRIVATE") sei = Returns w ->
    getAccounts sdk w = Returns (a :: rest) ->
    GasPrice_fromString sdk "0.1usei" = Returns g ->
    connectWithSigner sdk (env !! "RPC") w {| gasPrice := g |} = Throws e ->
    mint_run env
      {| completed := Rejected (Thrown e);
         trace := [EFromMnemonic (env !! "PRIVATE") sei (Returns w);
                   EGetAccounts w (Returns (a :: rest));
                   EGasPriceFromString "0.1usei" (Returns g);
                   EConnectWithSigner (env !! "RPC") w {| gasPrice := g |} (Throws e)] |}
| mint_run_refused w a rest g c e :
    fromMnemonic sdk (env !! "PRIVATE") sei = Returns w ->
    getAccounts sdk w = Returns (a :: rest) ->
    GasPrice_fromString sdk "0.1usei" = Returns g ->
    connectWithSigner sdk (env !! "RPC") w {| gasPrice := g |} = Returns c ->
    execute sdk c (address a) (env !! "CONTRACT_ADDR") (mint_msg (address a))
      FeeAuto "" usei_10000 = Throws e ->
    mint_run env
      {| completed := Rejected (Thrown e);
         trace := [EFromMnemonic (env !! "PRIVATE") sei (Returns w);
                   EGetAccounts w (Returns (a :: rest));
                   EGasPriceFromString "0.1usei" (Returns g);
                   EConnectWithSigner (env !! "RPC") w {| gasPrice := g |} (Returns c);
                   EExecute c (address a) (env !! "CONTRACT_ADDR")
                     (mint_msg (address a)) FeeAuto "" usei_10000 (Throws e)] |}
| mint_run_minted w a rest g c r :
    fromMnemonic sdk (env !! "PRIVATE") sei = Returns w ->
    getAccounts sdk w = Returns (a :: rest) ->
    GasPrice_fromString sdk "0.1usei" = Returns g ->
    connectWithSigner sdk (env !! "RPC") w {| gasPrice := g |} = Returns c ->
    execute sdk c (address a) (env !! "CONTRACT_ADDR") (mint_msg (address a))
      FeeAuto "" usei_10000 = Returns r ->
    mint_run env
      {| completed := Fulfilled tt;
         trace := [EFromMnemonic (env !! "PRIVATE") sei (Returns w);
                   EGetAccounts w (Returns (a :: rest));
                   EGasPriceFromString "0.1usei" (Returns g);
                   EConnectWithSigner (env !! "RPC") w {| gasPrice := g |} (Returns c);
                   EExecute c (address a) (env !! "CONTRACT_ADDR")
                     (mint_msg (address a)) FeeAuto "" usei_10000 (Returns r);
                   EConsoleLog (JStr (transactionHash r))] |}.

(** The three ways a run of the query script can go. *)
Inductive query_run (env : gmap string string) : flow unit -> Prop :=
| query_run_no_connection e :
    connect sdk (env !! "RPC") = Throws e ->
    query_run env
      {| completed := Rejected (Thrown e);
         trace := [EConnect (env !! "RPC") (Throws e)] |}
| query_run_refused c e :
    connect sdk (env !! "RPC") = Returns c ->
    queryContractSmart sdk c (env !! "CONTRACT_ADDR") num_tokens_msg = Throws e ->
    query_run env
      {| completed := Rejected (Thrown e);
         trace := [EConnect (env !! "RPC") (Returns c);
                   EQueryContractSmart c (env !! "CONTRACT_ADDR") num_tokens_msg
                     (Throws e)] |}
| query_run_answered c v :
    connect sdk (env !! "RPC") = Returns c ->
    queryContractSmart sdk c (env !! "CONTRACT_ADDR") num_tokens_msg = Returns v ->
    query_run env
      {| completed := Fulfilled tt;
         trace := [EConnect (env !! "RPC") (Returns c);
                   EQueryContractSmart c (env !! "CONTRACT_ADDR") num_tokens_msg
                     (Returns v);
                   EConsoleLog v] |}.

End RunShapes.

(** ** Vocabulary of the properties *)

Section Vocabulary.

Context {Secp256k1HdWallet GasPrice SigningCosmWasmClient CosmWasmClient : Type}.

Local Abbreviation event :=
  (@event Secp256k1HdWallet GasPrice SigningCosmWasmClient CosmWasmClient).
Local Abbreviation flow :=
  (@Flow Secp256k1HdWallet GasPrice SigningCosmWasmClient CosmWasmClient).

(** The run fails and has made no network call. *)
Definition fails_before_network (f : flow unit) : Prop :=
  (exists x, completed f = Rejected x) /\ network_calls (trace f) = [].

(** The SDK entry point (or [console.log]) an event is a call of. *)
Inductive call_kind : Type :=
| KFromMnemonic | KGetAccounts | KGasPriceFromString | KConnectWithSigner
| KExecute | KConnect | KQueryContractSmart | KConsoleLog.

Definition kind (ev : event) : call_kind :=
  match ev with
  | EFromMnemonic _ _ _ => KFromMnemonic
  | EGetAccounts _ _ => KGetAccounts
  | EGasPriceFromString _ _ => KGasPriceFromString
  | EConnectWithSigner _ _ _ _ => KConnectWithSigner
  | EExecute _ _ _ _ _ _ _ _ => KExecute
  | EConnect _ _ => KConnect
  | EQueryContractSmart _ _ _ _ => KQueryContractSmart
  | EConsoleLog _ => KConsoleLog
  end.

(** The error a call threw, if it threw. *)
Definition thrown_by (ev : event) : option Error :=
  match ev with
  | EFromMnemonic _ _ (Throws e) | EGetAccounts _ (Throws e)
  | EGasPriceFromString _ (Throws e) | EConnectWithSigner _ _ _ (Throws e)
  | EExecute _ _ _ _ _ _ _ (Throws e) | EConnect _ (Throws e)
  | EQueryContractSmart _ _ _ (Throws e) => Some e
  | _ => None
  end.

(** The statements of the two scripts, in source order. *)
Definition mint_pipeline : list call_kind :=
  [KFromMnemonic; KGetAccounts; KGasPriceFromString; KConnectWithSigner;
   KExecute; KConsoleLog].

Definition query_pipeline : list call_kind :=
  [KConnect; KQueryContractSmart; KConsoleLog].

(** How many values a run that ended in [o] has printed. *)
Definition printed_count {A : Type} (o : outcome A) : nat :=
  match o with
  | Fulfilled _ => 1
  | Rejected _ => 0
  end.

End Vocabulary.

(** ** A mocked chain

    A concrete SDK over a single known phrase, a single reachable node and a
    single deployed contract, used to run the scripts on concrete inputs. *)
Module Mock.

Record Wallet : Type := { phrase_of : string; prefix_of : string }.

(** A parsed gas price, kept as its source text. *)
Definition Price : Type := string.

Record Signing : Type :=
  { signing_node : string; signing_wallet : Wallet; signing_price : Price }.

Record Reader : Type := { reader_node : string }.

Record Chain : Type :=
  { phrase : string;
    accounts : list AccountData;
    node : string;
    nft : string;
    minted : Z;
    tx : ExecuteResult }.

Definition Event : Type := @event Wallet Price Signing Reader.

Definition sdk (ch : Chain) : @SDK Wallet Price Signing Reader :=
  {| fromMnemonic m o :=
       match m with
       | Some s =>
           if String.eqb s (phrase ch)
           then Returns {| phrase_of := s; prefix_of := prefix o |}
           else Throws "Invalid mnemonic format"
       | None => Throws "Cannot read properties of undefined"
       end;
     getAccounts w := Returns (accounts ch);
     GasPrice_fromString s := Returns s;
     connectWithSigner ep w o :=
       match ep with
       | Some u =>
           if String.eqb u (node ch)
           then Returns {| signing_node := u; signing_wallet := w;
                           signing_price := gasPrice o |}
           else Throws "connect ECONNREFUSED"
       | None => Throws "Invalid URL"
       end;
     execute c sender ct msg fee memo funds :=
       match ct with
       | Some a =>
           if String.eqb a (nft ch) then Returns (tx ch)
           else Throws "contract: not found"
       | None => Throws "empty address string is not allowed"
       end;
     connect ep :=
       match ep with
       | Some u =>
           if String.eqb u (node ch) then Returns {| reader_node := u |}
           else Throws "connect ECONNREFUSED"
       | None => Throws "Invalid URL"
       end;
     queryContractSmart c ct q :=
       match ct with
       | Some a =>
           if String.eqb a (nft ch)
           then Returns (JObj [("count", JNum (minted ch))])
           else Throws "contract: not found"
       | None => Throws "empty address string is not allowed"
       end |}.

Definition alice : AccountData :=
  {| address := "sei1alice"; algo := "secp256k1"; pubkey := [] |}.

Definition chain : Chain :=
  {| phrase := "abandon ability able about above absent absorb abstract absurd abuse access accident";
     accounts := [alice];
     node := "http://localhost:26657";
     nft := "sei1nftcontract";
     minted := 5;
     tx := {| height := 42; transactionHash := "5F3A9C"; gasWanted := 200000;
              gasUsed := 150000 |} |}.

(** The SDK objects of a run against [chain]. *)
Definition wallet : Wallet :=
  {| phrase_of := phrase chain; prefix_of := "sei" |}.
Definition signing : Signing :=
  {| signing_node := node chain; signing_wallet := wallet;
     signing_price := "0.1usei" |}.
Definition reader : Reader := {| reader_node := node chain |}.

(** The same node, with a wallet that lists no account. *)
Definition chain_no_account : Chain :=
  {| phrase := phrase chain; accounts := []; node := node chain;
     nft := nft chain; minted := minted chain; tx := tx chain |}.

(** [process.env] with every variable set. *)
Definition env : gmap string string :=
  <["PRIVATE" := phrase chain]>
    (<["RPC" := node chain]> (<["CONTRACT_ADDR" := nft chain]> ∅)).

(** [CONTRACT_ADDR] is not set. *)
Definition env_no_contract : gmap string string :=
  <["PRIVATE" := phrase chain]> (<["RPC" := node chain]> ∅).

(** [PRIVATE] is not set. *)
Definition env_no_phrase : gmap string string :=
  <["RPC" := node chain]> (<["CONTRACT_ADDR" := nft chain]> ∅).

(** [RPC] points to a node that does not answer. *)
Definition env_unreachable : gmap string string :=
  <["PRIVATE" := phrase chain]>
    (<["RPC" := "http://localhost:1"]> (<["CONTRACT_ADDR" := nft chain]> ∅)).

(** [RPC] is not set. *)
Definition env_no_rpc : gmap string string :=
  <["PRIVATE" := phrase chain]> (<["CONTRACT_ADDR" := nft chain]> ∅).


(** [CONTRACT_ADDR] names a contract that is not deployed. *)
Definition env_wrong_contract : gmap string string :=
  <["PRIVATE" := phrase chain]>
    (<["RPC" := node chain]> (<["CONTRACT_ADDR" := "sei1nobody"]> ∅)).

(** No [PRIVATE], and an unrelated variable set. *)
Definition env_reader_only : gmap string string :=
  <["HOME" := "/root"]>
    (<["RPC" := node chain]> (<["CONTRACT_ADDR" := nft chain]> ∅)).

(** Every variable of the mint script, and unrelated ones. *)
Definition env_crowded : gmap string string :=
  <["HOME" := "/root"]> (<["PATH" := "/usr/bin"]> env).

End Mock.

(** ** Properties *)

Section Properties.

Context {Secp256k1HdWallet GasPrice SigningCosmWasmClient CosmWasmClient : Type}.
Variable sdk : @SDK Secp256k1HdWallet GasPrice SigningCosmWasmClient CosmWasmClient.

Local Abbreviation sei := {| prefix := "sei" |}.
Local Abbreviation usei_10000 := [{| denom := "usei"; amount := "10000" |}].

#[local] Hint Constructors mint_run query_run : core.

Local Abbreviation flow :=
  (@Flow Secp256k1HdWallet GasPrice SigningCosmWasmClient CosmWasmClient).

(** The script monad is a monad: sequencing is associative and [flow_ret]
    is neutral, so the order of the calls in a trace is the order of the
    binds in the script. *)
Lemma flow_bind_ret_l {A B : Type} (a : A) (k : A -> flow B) :
  flow_bind k (flow_ret a) = k a.
Proof. unfold flow_bind. cbn. by destruct (k a). Qed.

Lemma flow_bind_ret_r {A : Type} (m : flow A) : flow_bind flow_ret m = m.
Proof.
  unfold flow_bind. destruct m as [[a|x] tr]; cbn; [|done].
  by rewrite app_nil_r.
Qed.

Lemma flow_bind_assoc {A B C : Type} (m : flow A) (k : A -> flow B) (h : B -> flow C) :
  flow_bind h (flow_bind k m) = flow_bind (fun a => flow_bind h (k a)) m.
Proof.
  unfold flow_bind. destruct m as [[a|x] tr]; cbn; [|done].
  destruct (k a) as [[b|y] tr']; cbn; [|done].
  by rewrite app_assoc.
Qed.

(** A rejected step ends the script: nothing after it is recorded. *)
Lemma flow_bind_rejected {A B : Type} (m : flow A) (k : A -> flow B) x :
  completed m = Rejected x ->
  flow_bind k m = {| completed := Rejected x; trace := trace m |}.
Proof. intros Hm. unfold flow_bind. by rewrite Hm. Qed.

(** Every run of the mint script has one of the seven shapes. *)
Lemma mint_flow_run env : mint_run sdk env (mint_flow sdk env).
Proof.
  unfold mint_flow, mbind, flow_mbind, flow_bind, call. cbn.
  destruct (fromMnemonic sdk (env !! "PRIVATE") sei) as [w|e] eqn:Ew; cbn;
    [|by eauto].
  destruct (getAccounts sdk w) as [[|a rest]|e] eqn:Ea; cbn; [by eauto| |by eauto].
  destruct (GasPrice_fromString sdk "0.1usei") as [g|e] eqn:Eg; cbn; [|by eauto].
  destruct (connectWithSigner sdk (env !! "RPC") w {| gasPrice := g |})
    as [c|e] eqn:Ec; cbn; [|by eauto].
  destruct (execute sdk c (address a) (env !! "CONTRACT_ADDR")
              (mint_msg (address a)) FeeAuto "" usei_10000) as [r|e] eqn:Ex;
    cbn; eauto.
Qed.

(** Every run of the query script has one of the three shapes. *)
Lemma query_flow_run env : query_run sdk env (query_flow sdk env).
Proof.
  unfold query_flow, mbind, flow_mbind, flow_bind, call. cbn.
  destruct (connect sdk (env !! "RPC")) as [c|e] eqn:Ec; cbn; [|by eauto].
  destruct (queryContractSmart sdk c (env !! "CONTRACT_ADDR") num_tokens_msg)
    as [v|e] eqn:Eq; cbn; eauto.
Qed.

(** Case analysis on the shape of a run, and on which entry of its trace
    a hypothesis [In ev (trace _)] speaks of. *)
Ltac mint_shapes env := destruct (mint_flow_run env); cbn.
Ltac query_shapes env := destruct (query_flow_run env); cbn.
Ltac pick H :=
  cbn in H;
  repeat (destruct H as [H|H];
          [try discriminate H; inversion H; clear H; subst|]);
  try destruct H.


(** C1: in a run of the mint script in which the connection succeeds (and
    so derivation did), the script calls [execute] exactly once: on the
    client the connection returned, opened with the gas price parsed from
    ["0.1usei"], with the address of the first account of the wallet
    derived from the phrase as sender, the payload
    [{mint: {extension: {}, owner: <that address>, token_uri:
    "https://alpaca.com/alpaca.jpg"}}], fee ["auto"], an empty memo and
    funds [[{denom: "usei", amount: "10000"}]]. *)
Theorem mint_makes_exactly_one_execute env ep w o c :
  In (EConnectWithSigner ep w o (Returns c)) (trace (mint_flow sdk env)) ->
  exists a rest g r,
    In (EFromMnemonic (env !! "PRIVATE") {| prefix := "sei" |} (Returns w))
       (trace (mint_flow sdk env)) /\
    In (EGetAccounts w (Returns (a :: rest))) (trace (mint_flow sdk env)) /\
    In (EGasPriceFromString "0.1usei" (Returns g)) (trace (mint_flow sdk env)) /\
    o = {| gasPrice := g |} /\
    executes (trace (mint_flow sdk env)) =
      [EExecute c (address a) (env !! "CONTRACT_ADDR")
         (JObj [("mint",
                 JObj [("extension", JObj []);
                       ("owner", JStr (address a));
                       ("token_uri", JStr "https://alpaca.com/alpaca.jpg")])])
         FeeAuto "" [{| denom := "usei"; amount := "10000" |}] r].
Proof.
  mint_shapes env; intros Hc; pick Hc.
  all: eexists _, _, _, _; repeat split; cbn; auto 10.
Qed.

(** Equations on the same SDK call are merged. *)
Ltac same_call :=
  repeat match goal with
    | H1 : ?t = _, H2 : ?t = _ |- _ =>
        rewrite H1 in H2; first [discriminate H2 | inversion H2; clear H2; subst]
    end.

(** C2, as amended: the mint script checks none of its inputs itself; an
    absent input is handed as [undefined] to the SDK call that takes it, as
    soon as the steps before that call have succeeded.  The phrase goes to
    [fromMnemonic], the first call; the endpoint to [connectWithSigner],
    after derivation, account listing and gas price parsing; the contract
    identifier to [execute], after a successful connection.  If that call
    throws, the run fails with its error and does nothing more, and the
    network-facing SDK calls made by then are none for the phrase, the
    [connectWithSigner] attempt itself for the endpoint, and the successful
    [connectWithSigner] followed by the [execute] attempt for the contract
    identifier. *)
Theorem mint_absent_input_reaches_its_call env :
  (env !! "PRIVATE" = None ->
   exists rest,
     trace (mint_flow sdk env) =
       EFromMnemonic None {| prefix := "sei" |}
         (fromMnemonic sdk None {| prefix := "sei" |}) :: rest /\
     forall e,
       fromMnemonic sdk None {| prefix := "sei" |} = Throws e ->
       completed (mint_flow sdk env) = Rejected (Thrown e) /\
       rest = [] /\
       network_calls (trace (mint_flow sdk env)) = []) /\
  (env !! "RPC" = None ->
   forall w a l g,
     fromMnemonic sdk (env !! "PRIVATE") {| prefix := "sei" |} = Returns w ->
     getAccounts sdk w = Returns (a :: l) ->
     GasPrice_fromString sdk "0.1usei" = Returns g ->
     exists rest,
       trace (mint_flow sdk env) =
         [EFromMnemonic (env !! "PRIVATE") {| prefix := "sei" |} (Returns w);
          EGetAccounts w (Returns (a :: l));
          EGasPriceFromString "0.1usei" (Returns g);
          EConnectWithSigner None w {| gasPrice := g |}
            (connectWithSigner sdk None w {| gasPrice := g |})] ++ rest /\
       forall e,
         connectWithSigner sdk None w {| gasPrice := g |} = Throws e ->
         completed (mint_flow sdk env) = Rejected (Thrown e) /\
         rest = [] /\
         network_calls (trace (mint_flow sdk env)) =
           [EConnectWithSigner None w {| gasPrice := g |} (Throws e)]) /\
  (env !! "CONTRACT_ADDR" = None ->
   forall w a l g c,
     fromMnemonic sdk (env !! "PRIVATE") {| prefix := "sei" |} = Returns w ->
     getAccounts sdk w = Returns (a :: l) ->
     GasPrice_fromString sdk "0.1usei" = Returns g ->
     connectWithSigner sdk (env !! "RPC") w {| gasPrice := g |} = Returns c ->
     exists rest,
       trace (mint_flow sdk env) =
         [EFromMnemonic (env !! "PRIVATE") {| prefix := "sei" |} (Returns w);
          EGetAccounts w (Returns (a :: l));
          EGasPriceFromString "0.1usei" (Returns g);
          EConnectWithSigner (env !! "RPC") w {| gasPrice := g |} (Returns c);
          EExecute c (address a) None (mint_msg (address a)) FeeAuto ""
            [{| denom := "usei"; amount := "10000" |}]
            (execute sdk c (address a) None (mint_msg (address a)) FeeAuto ""
               [{| denom := "usei"; amount := "10000" |}])] ++ rest /\
       forall e,
         execute sdk c (address a) None (mint_msg (address a)) FeeAuto ""
           [{| denom := "usei"; amount := "10000" |}] = Throws e ->
         completed (mint_flow sdk env) = Rejected (Thrown e) /\
         rest = [] /\
         network_calls (trace (mint_flow sdk env)) =
           [EConnectWithSigner (env !! "RPC") w {| gasPrice := g |} (Returns c);
            EExecute c (address a) None (mint_msg (address a)) FeeAuto ""
              [{| denom := "usei"; amount := "10000" |}] (Throws e)]).
Proof.
  split; [|split].
  - intros Hp. mint_shapes env; rewrite Hp in *;
      match goal with H : fromMnemonic _ _ _ = _ |- _ => rewrite H end;
      (eexists; split; [reflexivity|]); intros e' He'; same_call;
      try (inversion He'; subst); done.
  - intros Hr w a l g Hw Ha Hg. mint_shapes env; try rewrite Hr in *; same_call;
      match goal with H : connectWithSigner _ _ _ _ = _ |- _ => rewrite H end;
      (eexists; split; [reflexivity|]); intros e' He'; same_call;
      try (inversion He'; subst); done.
  - intros Hc w a l g c Hw Ha Hg Hcon. mint_shapes env; try rewrite Hc in *; same_call;
      match goal with H : execute _ _ _ _ _ _ _ _ = _ |- _ => rewrite H end;
      (eexists; split; [reflexivity|]); intros e' He'; same_call;
      try (inversion He'; subst); done.
Qed.

(** C3: in a run of the query script in which the contract answers the
    query with [v], the query sent was [{num_tokens: {}}], the script
    completes, what it prints is exactly [v], and it makes no
    state-changing invocation. *)
Theorem query_emits_response_unmodified env c ct q v :
  In (EQueryContractSmart c ct q (Returns v)) (trace (query_flow sdk env)) ->
  q = JObj [("num_tokens", JObj [])] /\
  completed (query_flow sdk env) = Fulfilled tt /\
  stdout (trace (query_flow sdk env)) = [v] /\
  executes (trace (query_flow sdk env)) = [].
Proof.
  query_shapes env; intros Hq; pick Hq; done.
Qed.


(** C5: in a run of the mint script in which the connection attempt
    throws, the run fails with that error, the attempt is the last thing
    the run did, and no [execute] call is made. *)
Theorem mint_connection_failure_stops_before_execute env ep w o e :
  In (EConnectWithSigner ep w o (Throws e)) (trace (mint_flow sdk env)) ->
  completed (mint_flow sdk env) = Rejected (Thrown e) /\
  last (trace (mint_flow sdk env)) = Some (EConnectWithSigner ep w o (Throws e)) /\
  executes (trace (mint_flow sdk env)) = [].
Proof.
  mint_shapes env; intros Hc; pick Hc; done.
Qed.

(** C6: no run of either script invokes the contract more than once. *)
Theorem at_most_one_invocation env :
  length (invocations (trace (mint_flow sdk env))) <= 1 /\
  length (invocations (trace (query_flow sdk env))) <= 1.
Proof.
  split; [mint_shapes env | query_shapes env]; lia.
Qed.

(** C8: a run of the mint script that completes prints exactly the
    [transactionHash] of the result [execute] returned; a run of the query
    script that completes prints exactly the value the query returned. *)
Theorem successful_runs_print_their_result env :
  (completed (mint_flow sdk env) = Fulfilled tt ->
   exists c sender r,
     In (EExecute c sender (env !! "CONTRACT_ADDR") (mint_msg sender) FeeAuto ""
           [{| denom := "usei"; amount := "10000" |}] (Returns r))
        (trace (mint_flow sdk env)) /\
     stdout (trace (mint_flow sdk env)) = [JStr (transactionHash r)]) /\
  (completed (query_flow sdk env) = Fulfilled tt ->
   exists c v,
     In (EQueryContractSmart c (env !! "CONTRACT_ADDR") num_tokens_msg (Returns v))
        (trace (query_flow sdk env)) /\
     stdout (trace (query_flow sdk env)) = [v]).
Proof.
  split; [mint_shapes env | query_shapes env]; intros Hok; simplify_eq;
    eauto 12.
Qed.

(** C9: in every [execute] call of the mint script, the sender (first
    argument) and the [owner] field of the [mint] payload are the same
    string, the [address] of the first account [getAccounts] returned. *)
Theorem mint_sender_is_owner env c sender ct msg fee memo funds r :
  In (EExecute c sender ct msg fee memo funds r) (trace (mint_flow sdk env)) ->
  json_path ["mint"; "owner"] msg = Some (JStr sender) /\
  exists w a rest,
    In (EGetAccounts w (Returns (a :: rest))) (trace (mint_flow sdk env)) /\
    sender = address a.
Proof.
  mint_shapes env; intros Hx; pick Hx; (split; [reflexivity | eauto 10]).
Qed.

(** C10: in a run of the mint script in which [getAccounts] returns the
    empty list, the run fails with the destructuring [TypeError], and
    neither a connection nor an invocation is attempted. *)
Theorem mint_empty_accounts_fails_before_connecting env w :
  In (EGetAccounts w (Returns [])) (trace (mint_flow sdk env)) ->
  completed (mint_flow sdk env) = Rejected DestructureTypeError /\
  connections (trace (mint_flow sdk env)) = [] /\
  executes (trace (mint_flow sdk env)) = [] /\
  network_calls (trace (mint_flow sdk env)) = [].
Proof.
  mint_shapes env; intros Ha; pick Ha; done.
Qed.

(** ** Further properties of the two scripts *)

(** X1: a run of either script prints one value when it completes and
    nothing when it fails. *)
Theorem prints_once_or_never env :
  length (stdout (trace (mint_flow sdk env))) =
    printed_count (completed (mint_flow sdk env)) /\
  length (stdout (trace (query_flow sdk env))) =
    printed_count (completed (query_flow sdk env)).
Proof.
  split; [mint_shapes env | query_shapes env]; reflexivity.
Qed.

(** X2: in a run of the mint script, an SDK call that throws is the last
    thing the run does, the run fails with exactly the error thrown, and
    nothing is printed: no error is caught, replaced or retried. *)
Theorem mint_first_error_is_final env ev e :
  In ev (trace (mint_flow sdk env)) ->
  thrown_by ev = Some e ->
  completed (mint_flow sdk env) = Rejected (Thrown e) /\
  last (trace (mint_flow sdk env)) = Some ev /\
  stdout (trace (mint_flow sdk env)) = [].
Proof.
  mint_shapes env; intros Hev Hthrown; pick Hev; cbn in Hthrown;
    try discriminate Hthrown; by inversion Hthrown.
Qed.

(** X3: in a run of the query script, an SDK call that throws is the last
    thing the run does, the run fails with exactly the error thrown, and
    nothing is printed. *)
Theorem query_first_error_is_final env ev e :
  In ev (trace (query_flow sdk env)) ->
  thrown_by ev = Some e ->
  completed (query_flow sdk env) = Rejected (Thrown e) /\
  last (trace (query_flow sdk env)) = Some ev /\
  stdout (trace (query_flow sdk env)) = [].
Proof.
  query_shapes env; intros Hev Hthrown; pick Hev; cbn in Hthrown;
    try discriminate Hthrown; by inversion Hthrown.
Qed.

(** X4: every failure of the mint script is accounted for by the last
    entry of its trace: either that entry is an SDK call that threw the
    error the run failed with, or it is a [getAccounts] that returned the
    empty list and the run failed with the destructuring [TypeError]. *)
Theorem mint_failure_has_a_cause env x :
  completed (mint_flow sdk env) = Rejected x ->
  exists ev,
    last (trace (mint_flow sdk env)) = Some ev /\
    ((exists e, x = Thrown e /\ thrown_by ev = Some e) \/
     (exists w, x = DestructureTypeError /\ ev = EGetAccounts w (Returns []))).
Proof.
  mint_shapes env; intros Hx; inversion Hx; subst;
    eexists; (split; [reflexivity|]); eauto.
Qed.

(** X5: the calls of a run are an initial segment of the statements of the
    script, in source order: no step is repeated, skipped or reordered. *)
Theorem runs_follow_the_pipeline env :
  (exists rest, mint_pipeline = map kind (trace (mint_flow sdk env)) ++ rest) /\
  (exists rest, query_pipeline = map kind (trace (query_flow sdk env)) ++ rest).
Proof.
  split; [mint_shapes env | query_shapes env];
    unfold mint_pipeline, query_pipeline; eexists; reflexivity.
Qed.

(** X6: whenever the mint script attempts a connection, whether it succeeds
    or not, the endpoint is [process.env.RPC] as read, the signer is the
    wallet [fromMnemonic] returned for [process.env.PRIVATE] with prefix
    ["sei"], that wallet lists at least one account, and the gas price is
    the one parsed from ["0.1usei"]. *)
Theorem mint_connects_with_the_derived_wallet env ep w o r :
  In (EConnectWithSigner ep w o r) (trace (mint_flow sdk env)) ->
  ep = env !! "RPC" /\
  fromMnemonic sdk (env !! "PRIVATE") {| prefix := "sei" |} = Returns w /\
  (exists a rest, getAccounts sdk w = Returns (a :: rest)) /\
  (exists g, GasPrice_fromString sdk "0.1usei" = Returns g /\
             o = {| gasPrice := g |}) /\
  r = connectWithSigner sdk ep w o.
Proof.
  mint_shapes env; intros Hc; pick Hc; repeat split; eauto.
Qed.

(** X7: whenever the mint script calls [execute], whether it succeeds or
    not, the client is the one a successful connection to
    [process.env.RPC] returned earlier in the same run, and the contract is
    [process.env.CONTRACT_ADDR] as read. *)
Theorem mint_executes_on_the_connected_client env c sender ct msg fee memo funds r :
  In (EExecute c sender ct msg fee memo funds r) (trace (mint_flow sdk env)) ->
  ct = env !! "CONTRACT_ADDR" /\
  exists w o pre post,
    trace (mint_flow sdk env) =
      pre ++ EConnectWithSigner (env !! "RPC") w o (Returns c) ::
      EExecute c sender ct msg fee memo funds r :: post.
Proof.
  mint_shapes env; intros Hx; pick Hx; (split; [reflexivity|]).
  - eexists _, _, [_; _; _], []. reflexivity.
  - eexists _, _, [_; _; _], [_]. reflexivity.
Qed.

(** X8: whenever the query script queries the contract, whether the query
    succeeds or not, it is the first and only query of the run, it is sent
    on the client the connection to [process.env.RPC] returned, to
    [process.env.CONTRACT_ADDR] as read, with the payload
    [{num_tokens: {}}]. *)
Theorem query_asks_num_tokens_on_the_connected_client env c ct q r :
  In (EQueryContractSmart c ct q r) (trace (query_flow sdk env)) ->
  connect sdk (env !! "RPC") = Returns c /\
  ct = env !! "CONTRACT_ADDR" /\
  q = JObj [("num_tokens", JObj [])] /\
  invocations (trace (query_flow sdk env)) = [EQueryContractSmart c ct q r] /\
  network_calls (trace (query_flow sdk env)) =
    [EConnect (env !! "RPC") (Returns c); EQueryContractSmart c ct q r].
Proof.
  query_shapes env; intros Hq; pick Hq; done.
Qed.

(** X9: the query script reads only [RPC] and [CONTRACT_ADDR]: two
    environments that agree on these give the same run, whatever else they
    hold.  In particular the run does not depend on the secret phrase. *)
Theorem query_reads_only_rpc_and_contract env env' :
  env !! "RPC" = env' !! "RPC" ->
  env !! "CONTRACT_ADDR" = env' !! "CONTRACT_ADDR" ->
  query_flow sdk env = query_flow sdk env'.
Proof.
  intros Hrpc Hct. unfold query_flow. by rewrite Hrpc, Hct.
Qed.

(** X10: the contract identifier plays no part before [execute]: two
    environments that agree on [PRIVATE] and [RPC] give runs with the same
    first four calls (derivation, account listing, gas price, connection),
    completed the same way. *)
Theorem mint_contract_unused_until_execute env env' :
  env !! "PRIVATE" = env' !! "PRIVATE" ->
  env !! "RPC" = env' !! "RPC" ->
  take 4 (trace (mint_flow sdk env)) = take 4 (trace (mint_flow sdk env')).
Proof.
  intros Hp Hrpc.
  unfold mint_flow, mbind, flow_mbind, flow_bind, call. cbn.
  rewrite <- Hp, <- Hrpc.
  destruct (fromMnemonic sdk (env !! "PRIVATE") sei) as [w|e]; cbn; [|done].
  destruct (getAccounts sdk w) as [[|a rest]|e]; cbn; [done| |done].
  destruct (GasPrice_fromString sdk "0.1usei") as [g|e]; cbn; [|done].
  destruct (connectWithSigner sdk (env !! "RPC") w {| gasPrice := g |})
    as [c|e]; cbn; [|done].
  by destruct (execute sdk c (address a) (env !! "CONTRACT_ADDR") _ _ _ _),
       (execute sdk c (address a) (env' !! "CONTRACT_ADDR") _ _ _ _).
Qed.

(** X11: in a run of the mint script in which [execute] returns a result,
    the run completes and prints exactly the [transactionHash] of that
    result, as a string, and nothing else of it. *)
Theorem mint_reports_the_transaction_hash env c sender ct msg fee memo funds res :
  In (EExecute c sender ct msg fee memo funds (Returns res))
     (trace (mint_flow sdk env)) ->
  completed (mint_flow sdk env) = Fulfilled tt /\
  stdout (trace (mint_flow sdk env)) = [JStr (transactionHash res)] /\
  last (trace (mint_flow sdk env)) = Some (EConsoleLog (JStr (transactionHash res))).
Proof.
  mint_shapes env; intros Hx; pick Hx; done.
Qed.

End Properties.

(** ** The scripts on the mocked chain *)

Ltac run_mock := vm_compute; repeat first [reflexivity | left; reflexivity | right].

Lemma mint_makes_exactly_one_execute_witness :
  In (EConnectWithSigner (Some "http://localhost:26657") Mock.wallet
        {| gasPrice := "0.1usei" |} (Returns Mock.signing))
     (trace (mint_flow (Mock.sdk Mock.chain) Mock.env)) /\
  exists a rest g r,
    In (EFromMnemonic (Mock.env !! "PRIVATE") {| prefix := "sei" |}
          (Returns Mock.wallet))
       (trace (mint_flow (Mock.sdk Mock.chain) Mock.env)) /\
    In (EGetAccounts Mock.wallet (Returns (a :: rest)))
       (trace (mint_flow (Mock.sdk Mock.chain) Mock.env)) /\
    In (EGasPriceFromString "0.1usei" (Returns g))
       (trace (mint_flow (Mock.sdk Mock.chain) Mock.env)) /\
    {| gasPrice := "0.1usei" |} = {| gasPrice := g |} /\
    executes (trace (mint_flow (Mock.sdk Mock.chain) Mock.env)) =
      [EExecute Mock.signing (address a) (Mock.env !! "CONTRACT_ADDR")
         (JObj [("mint",
                 JObj [("extension", JObj []);
                       ("owner", JStr (address a));
                       ("token_uri", JStr "https://alpaca.com/alpaca.jpg")])])
         FeeAuto "" [{| denom := "usei"; amount := "10000" |}] r].
Proof.
  split; [run_mock|].
  apply (mint_makes_exactly_one_execute (Mock.sdk Mock.chain) Mock.env
           (Some "http://localhost:26657") Mock.wallet {| gasPrice := "0.1usei" |}
           Mock.signing).
  run_mock.
Defined.

(** With [CONTRACT_ADDR] unset, the mint script derives the wallet, connects
    to the node and calls [execute]; only that call fails.  The run has made
    two network calls by then. *)
Lemma mint_absent_contract_reaches_network :
  Mock.env_no_contract !! "CONTRACT_ADDR" = None /\
  ~ fails_before_network (mint_flow (Mock.sdk Mock.chain) Mock.env_no_contract) /\
  completed (mint_flow (Mock.sdk Mock.chain) Mock.env_no_contract) =
    Rejected (Thrown "empty address string is not allowed") /\
  network_calls (trace (mint_flow (Mock.sdk Mock.chain) Mock.env_no_contract)) =
    [EConnectWithSigner (Some "http://localhost:26657") Mock.wallet
       {| gasPrice := "0.1usei" |} (Returns Mock.signing);
     EExecute Mock.signing "sei1alice" None
       (JObj [("mint",
               JObj [("extension", JObj []);
                     ("owner", JStr "sei1alice");
                     ("token_uri", JStr "https://alpaca.com/alpaca.jpg")])])
       FeeAuto "" [{| denom := "usei"; amount := "10000" |}]
       (Throws "empty address string is not allowed")].
Proof.
  split; [run_mock|]. split; [|split; run_mock].
  intros [_ Hnone]. vm_compute in Hnone. discriminate Hnone.
Qed.

Lemma mint_absent_input_reaches_its_call_witness :
  (Mock.env_no_phrase !! "PRIVATE" = None /\
   fromMnemonic (Mock.sdk Mock.chain) None {| prefix := "sei" |} =
     Throws "Cannot read properties of undefined" /\
   completed (mint_flow (Mock.sdk Mock.chain) Mock.env_no_phrase) =
     Rejected (Thrown "Cannot read properties of undefined") /\
   network_calls (trace (mint_flow (Mock.sdk Mock.chain) Mock.env_no_phrase)) = []) /\
  (Mock.env_no_rpc !! "RPC" = None /\
   connectWithSigner (Mock.sdk Mock.chain) None Mock.wallet
     {| gasPrice := "0.1usei" |} = Throws "Invalid URL" /\
   completed (mint_flow (Mock.sdk Mock.chain) Mock.env_no_rpc) =
     Rejected (Thrown "Invalid URL") /\
   network_calls (trace (mint_flow (Mock.sdk Mock.chain) Mock.env_no_rpc)) =
     [EConnectWithSigner None Mock.wallet {| gasPrice := "0.1usei" |}
        (Throws "Invalid URL")]) /\
  (Mock.env_no_contract !! "CONTRACT_ADDR" = None /\
   execute (Mock.sdk Mock.chain) Mock.signing "sei1alice" None
     (mint_msg "sei1alice") FeeAuto "" [{| denom := "usei"; amount := "10000" |}] =
     Throws "empty address string is not allowed" /\
   completed (mint_flow (Mock.sdk Mock.chain) Mock.env_no_contract) =
     Rejected (Thrown "empty address string is not allowed") /\
   network_calls (trace (mint_flow (Mock.sdk Mock.chain) Mock.env_no_contract)) =
     [EConnectWithSigner (Mock.env_no_contract !! "RPC") Mock.wallet
        {| gasPrice := "0.1usei" |} (Returns Mock.signing);
      EExecute Mock.signing "sei1alice" None (mint_msg "sei1alice") FeeAuto ""
        [{| denom := "usei"; amount := "10000" |}]
        (Throws "empty address string is not allowed")]).
Proof.
  split; [|split].
  - assert (Hnone : Mock.env_no_phrase !! "PRIVATE" = None) by run_mock.
    split; [exact Hnone|]. split; [reflexivity|].
    destruct (mint_absent_input_reaches_its_call (Mock.sdk Mock.chain)
                Mock.env_no_phrase) as (Hphrase & _ & _).
    destruct (Hphrase Hnone) as (rest & _ & Hthrows).
    destruct (Hthrows "Cannot read properties of undefined" eq_refl)
      as (Hrun & _ & Hnet).
    split; [exact Hrun | exact Hnet].
  - assert (Hnone : Mock.env_no_rpc !! "RPC" = None) by run_mock.
    split; [exact Hnone|]. split; [reflexivity|].
    destruct (mint_absent_input_reaches_its_call (Mock.sdk Mock.chain)
                Mock.env_no_rpc) as (_ & Hrpc & _).
    destruct (Hrpc Hnone Mock.wallet Mock.alice [] "0.1usei")
      as (rest & _ & Hthrows); [run_mock | reflexivity | reflexivity |].
    destruct (Hthrows "Invalid URL" eq_refl) as (Hrun & _ & Hnet).
    split; [exact Hrun | exact Hnet].
  - assert (Hnone : Mock.env_no_contract !! "CONTRACT_ADDR" = None) by run_mock.
    split; [exact Hnone|]. split; [reflexivity|].
    destruct (mint_absent_input_reaches_its_call (Mock.sdk Mock.chain)
                Mock.env_no_contract) as (_ & _ & Hcontract).
    destruct (Hcontract Hnone Mock.wallet Mock.alice [] "0.1usei" Mock.signing)
      as (rest & _ & Hthrows); [run_mock | reflexivity | reflexivity | run_mock |].
    destruct (Hthrows "empty address string is not allowed" eq_refl)
      as (Hrun & _ & Hnet).
    split; [exact Hrun | exact Hnet].
Defined.

Lemma query_emits_response_unmodified_witness :
  In (EQueryContractSmart Mock.reader (Some "sei1nftcontract")
        (JObj [("num_tokens", JObj [])]) (Returns (JObj [("count", JNum 5)])))
     (trace (query_flow (Mock.sdk Mock.chain) Mock.env)) /\
  JObj [("num_tokens", JObj [])] = JObj [("num_tokens", JObj [])] /\
  completed (query_flow (Mock.sdk Mock.chain) Mock.env) = Fulfilled tt /\
  stdout (trace (query_flow (Mock.sdk Mock.chain) Mock.env)) =
    [JObj [("count", JNum 5)]] /\
  executes (trace (query_flow (Mock.sdk Mock.chain) Mock.env)) = [].
Proof.
  split; [run_mock|].
  apply (query_emits_response_unmodified (Mock.sdk Mock.chain) Mock.env
           Mock.reader (Some "sei1nftcontract")).
  run_mock.
Defined.



Lemma mint_connection_failure_stops_before_execute_witness :
  In (EConnectWithSigner (Some "http://localhost:1") Mock.wallet
        {| gasPrice := "0.1usei" |} (Throws "connect ECONNREFUSED"))
     (trace (mint_flow (Mock.sdk Mock.chain) Mock.env_unreachable)) /\
  completed (mint_flow (Mock.sdk Mock.chain) Mock.env_unreachable) =
    Rejected (Thrown "connect ECONNREFUSED") /\
  last (trace (mint_flow (Mock.sdk Mock.chain) Mock.env_unreachable)) =
    Some (EConnectWithSigner (Some "http://localhost:1") Mock.wallet
            {| gasPrice := "0.1usei" |} (Throws "connect ECONNREFUSED")) /\
  executes (trace (mint_flow (Mock.sdk Mock.chain) Mock.env_unreachable)) = [].
Proof.
  split; [run_mock|].
  apply (mint_connection_failure_stops_before_execute (Mock.sdk Mock.chain)).
  run_mock.
Defined.

Lemma successful_runs_print_their_result_witness :
  (completed (mint_flow (Mock.sdk Mock.chain) Mock.env) = Fulfilled tt /\
   completed (query_flow (Mock.sdk Mock.chain) Mock.env) = Fulfilled tt) /\
  (exists c sender r,
     In (EExecute c sender (Mock.env !! "CONTRACT_ADDR") (mint_msg sender) FeeAuto ""
           [{| denom := "usei"; amount := "10000" |}] (Returns r))
        (trace (mint_flow (Mock.sdk Mock.chain) Mock.env)) /\
     stdout (trace (mint_flow (Mock.sdk Mock.chain) Mock.env)) =
       [JStr (transactionHash r)]) /\
  (exists c v,
     In (EQueryContractSmart c (Mock.env !! "CONTRACT_ADDR") num_tokens_msg (Returns v))
        (trace (query_flow (Mock.sdk Mock.chain) Mock.env)) /\
     stdout (trace (query_flow (Mock.sdk Mock.chain) Mock.env)) = [v]).
Proof.
  split; [split; run_mock|].
  destruct (successful_runs_print_their_result (Mock.sdk Mock.chain) Mock.env)
    as [Hmint Hquery].
  split; [apply Hmint | apply Hquery]; run_mock.
Defined.

Lemma mint_sender_is_owner_witness :
  In (EExecute Mock.signing "sei1alice" (Some "sei1nftcontract")
        (mint_msg "sei1alice") FeeAuto ""
        [{| denom := "usei"; amount := "10000" |}] (Returns (Mock.tx Mock.chain)))
     (trace (mint_flow (Mock.sdk Mock.chain) Mock.env)) /\
  json_path ["mint"; "owner"] (mint_msg "sei1alice") = Some (JStr "sei1alice") /\
  exists w a rest,
    In (EGetAccounts w (Returns (a :: rest)))
       (trace (mint_flow (Mock.sdk Mock.chain) Mock.env)) /\
    "sei1alice" = address a.
Proof.
  split; [run_mock|].
  apply (mint_sender_is_owner (Mock.sdk Mock.chain) Mock.env Mock.signing
           "sei1alice" (Some "sei1nftcontract") (mint_msg "sei1alice") FeeAuto ""
           [{| denom := "usei"; amount := "10000" |}]
           (Returns (Mock.tx Mock.chain))).
  run_mock.
Defined.

Lemma mint_empty_accounts_fails_before_connecting_witness :
  In (EGetAccounts Mock.wallet (Returns []))
     (trace (mint_flow (Mock.sdk Mock.chain_no_account) Mock.env)) /\
  completed (mint_flow (Mock.sdk Mock.chain_no_account) Mock.env) =
    Rejected DestructureTypeError /\
  connections (trace (mint_flow (Mock.sdk Mock.chain_no_account) Mock.env)) = [] /\
  executes (trace (mint_flow (Mock.sdk Mock.chain_no_account) Mock.env)) = [] /\
  network_calls (trace (mint_flow (Mock.sdk Mock.chain_no_account) Mock.env)) = [].
Proof.
  split; [run_mock|].
  apply (mint_empty_accounts_fails_before_connecting (Mock.sdk Mock.chain_no_account)
           Mock.env Mock.wallet).
  run_mock.
Defined.

Lemma mint_first_error_is_final_witness :
  In (EExecute Mock.signing "sei1alice" (Some "sei1nobody") (mint_msg "sei1alice")
        FeeAuto "" [{| denom := "usei"; amount := "10000" |}]
        (Throws "contract: not found"))
     (trace (mint_flow (Mock.sdk Mock.chain) Mock.env_wrong_contract)) /\
  thrown_by
    (EExecute Mock.signing "sei1alice" (Some "sei1nobody") (mint_msg "sei1alice")
       FeeAuto "" [{| denom := "usei"; amount := "10000" |}]
       (Throws "contract: not found") : Mock.Event) = Some "contract: not found" /\
  completed (mint_flow (Mock.sdk Mock.chain) Mock.env_wrong_contract) =
    Rejected (Thrown "contract: not found") /\
  last (trace (mint_flow (Mock.sdk Mock.chain) Mock.env_wrong_contract)) =
    Some (EExecute Mock.signing "sei1alice" (Some "sei1nobody")
            (mint_msg "sei1alice") FeeAuto ""
            [{| denom := "usei"; amount := "10000" |}]
            (Throws "contract: not found")) /\
  stdout (trace (mint_flow (Mock.sdk Mock.chain) Mock.env_wrong_contract)) = [].
Proof.
  split; [run_mock|]. split; [reflexivity|].
  apply (mint_first_error_is_final (Mock.sdk Mock.chain) Mock.env_wrong_contract);
    [run_mock | reflexivity].
Defined.

Lemma query_first_error_is_final_witness :
  In (EQueryContractSmart Mock.reader (Some "sei1nobody") num_tokens_msg
        (Throws "contract: not found"))
     (trace (query_flow (Mock.sdk Mock.chain) Mock.env_wrong_contract)) /\
  thrown_by
    (EQueryContractSmart Mock.reader (Some "sei1nobody") num_tokens_msg
       (Throws "contract: not found") : Mock.Event) = Some "contract: not found" /\
  completed (query_flow (Mock.sdk Mock.chain) Mock.env_wrong_contract) =
    Rejected (Thrown "contract: not found") /\
  last (trace (query_flow (Mock.sdk Mock.chain) Mock.env_wrong_contract)) =
    Some (EQueryContractSmart Mock.reader (Some "sei1nobody") num_tokens_msg
            (Throws "contract: not found")) /\
  stdout (trace (query_flow (Mock.sdk Mock.chain) Mock.env_wrong_contract)) = [].
Proof.
  split; [run_mock|]. split; [reflexivity|].
  apply (query_first_error_is_final (Mock.sdk Mock.chain) Mock.env_wrong_contract);
    [run_mock | reflexivity].
Defined.

Lemma mint_failure_has_a_cause_witness :
  completed (mint_flow (Mock.sdk Mock.chain_no_account) Mock.env) =
    Rejected DestructureTypeError /\
  exists ev,
    last (trace (mint_flow (Mock.sdk Mock.chain_no_account) Mock.env)) = Some ev /\
    ((exists e, DestructureTypeError = Thrown e /\ thrown_by ev = Some e) \/
     (exists w, DestructureTypeError = DestructureTypeError /\
                ev = EGetAccounts w (Returns []))).
Proof.
  split; [run_mock|].
  apply (mint_failure_has_a_cause (Mock.sdk Mock.chain_no_account) Mock.env).
  run_mock.
Defined.

Lemma mint_connects_with_the_derived_wallet_witness :
  In (EConnectWithSigner (Some "http://localhost:1") Mock.wallet
        {| gasPrice := "0.1usei" |} (Throws "connect ECONNREFUSED"))
     (trace (mint_flow (Mock.sdk Mock.chain) Mock.env_unreachable)) /\
  Some "http://localhost:1" = Mock.env_unreachable !! "RPC" /\
  fromMnemonic (Mock.sdk Mock.chain) (Mock.env_unreachable !! "PRIVATE")
    {| prefix := "sei" |} = Returns Mock.wallet /\
  (exists a rest, getAccounts (Mock.sdk Mock.chain) Mock.wallet = Returns (a :: rest)) /\
  (exists g, GasPrice_fromString (Mock.sdk Mock.chain) "0.1usei" = Returns g /\
             {| gasPrice := "0.1usei" |} = {| gasPrice := g |}) /\
  Throws "connect ECONNREFUSED" =
    connectWithSigner (Mock.sdk Mock.chain) (Some "http://localhost:1") Mock.wallet
      {| gasPrice := "0.1usei" |}.
Proof.
  split; [run_mock|].
  apply (mint_connects_with_the_derived_wallet (Mock.sdk Mock.chain)
           Mock.env_unreachable).
  run_mock.
Defined.

Lemma mint_executes_on_the_connected_client_witness :
  In (EExecute Mock.signing "sei1alice" (Some "sei1nftcontract")
        (mint_msg "sei1alice") FeeAuto ""
        [{| denom := "usei"; amount := "10000" |}] (Returns (Mock.tx Mock.chain)))
     (trace (mint_flow (Mock.sdk Mock.chain) Mock.env)) /\
  Some "sei1nftcontract" = Mock.env !! "CONTRACT_ADDR" /\
  exists w o pre post,
    trace (mint_flow (Mock.sdk Mock.chain) Mock.env) =
      pre ++ EConnectWithSigner (Mock.env !! "RPC") w o (Returns Mock.signing) ::
      EExecute Mock.signing "sei1alice" (Some "sei1nftcontract")
        (mint_msg "sei1alice") FeeAuto ""
        [{| denom := "usei"; amount := "10000" |}] (Returns (Mock.tx Mock.chain)) ::
      post.
Proof.
  split; [run_mock|].
  apply (mint_executes_on_the_connected_client (Mock.sdk Mock.chain) Mock.env).
  run_mock.
Defined.

Lemma query_asks_num_tokens_on_the_connected_client_witness :
  In (EQueryContractSmart Mock.reader (Some "sei1nftcontract")
        (JObj [("num_tokens", JObj [])]) (Returns (JObj [("count", JNum 5)])))
     (trace (query_flow (Mock.sdk Mock.chain) Mock.env_reader_only)) /\
  connect (Mock.sdk Mock.chain) (Mock.env_reader_only !! "RPC") = Returns Mock.reader /\
  Some "sei1nftcontract" = Mock.env_reader_only !! "CONTRACT_ADDR" /\
  JObj [("num_tokens", JObj [])] = JObj [("num_tokens", JObj [])] /\
  invocations (trace (query_flow (Mock.sdk Mock.chain) Mock.env_reader_only)) =
    [EQueryContractSmart Mock.reader (Some "sei1nftcontract")
       (JObj [("num_tokens", JObj [])]) (Returns (JObj [("count", JNum 5)]))] /\
  network_calls (trace (query_flow (Mock.sdk Mock.chain) Mock.env_reader_only)) =
    [EConnect (Mock.env_reader_only !! "RPC") (Returns Mock.reader);
     EQueryContractSmart Mock.reader (Some "sei1nftcontract")
       (JObj [("num_tokens", JObj [])]) (Returns (JObj [("count", JNum 5)]))].
Proof.
  split; [run_mock|].
  apply (query_asks_num_tokens_on_the_connected_client (Mock.sdk Mock.chain)
           Mock.env_reader_only).
  run_mock.
Defined.

Lemma query_reads_only_rpc_and_contract_witness :
  Mock.env !! "RPC" = Mock.env_reader_only !! "RPC" /\
  Mock.env !! "CONTRACT_ADDR" = Mock.env_reader_only !! "CONTRACT_ADDR" /\
  Mock.env !! "PRIVATE" <> Mock.env_reader_only !! "PRIVATE" /\
  query_flow (Mock.sdk Mock.chain) Mock.env =
    query_flow (Mock.sdk Mock.chain) Mock.env_reader_only.
Proof.
  split; [run_mock|]. split; [run_mock|].
  split; [vm_compute; discriminate|].
  apply (query_reads_only_rpc_and_contract (Mock.sdk Mock.chain)); run_mock.
Defined.

Lemma mint_contract_unused_until_execute_witness :
  Mock.env !! "PRIVATE" = Mock.env_wrong_contract !! "PRIVATE" /\
  Mock.env !! "RPC" = Mock.env_wrong_contract !! "RPC" /\
  Mock.env !! "CONTRACT_ADDR" <> Mock.env_wrong_contract !! "CONTRACT_ADDR" /\
  take 4 (trace (mint_flow (Mock.sdk Mock.chain) Mock.env)) =
    take 4 (trace (mint_flow (Mock.sdk Mock.chain) Mock.env_wrong_contract)).
Proof.
  split; [run_mock|]. split; [run_mock|].
  split; [vm_compute; discriminate|].
  apply (mint_contract_unused_until_execute (Mock.sdk Mock.chain)); run_mock.
Defined.

Lemma mint_reports_the_transaction_hash_witness :
  In (EExecute Mock.signing "sei1alice" (Some "sei1nftcontract")
        (mint_msg "sei1alice") FeeAuto ""
        [{| denom := "usei"; amount := "10000" |}] (Returns (Mock.tx Mock.chain)))
     (trace (mint_flow (Mock.sdk Mock.chain) Mock.env_crowded)) /\
  completed (mint_flow (Mock.sdk Mock.chain) Mock.env_crowded) = Fulfilled tt /\
  stdout (trace (mint_flow (Mock.sdk Mock.chain) Mock.env_crowded)) =
    [JStr (transactionHash (Mock.tx Mock.chain))] /\
  last (trace (mint_flow (Mock.sdk Mock.chain) Mock.env_crowded)) =
    Some (EConsoleLog (JStr (transactionHash (Mock.tx Mock.chain)))).
Proof.
  split; [run_mock|].
  apply (mint_reports_the_transaction_hash (Mock.sdk Mock.chain) Mock.env_crowded
           Mock.signing "sei1alice" (Some "sei1nftcontract") (mint_msg "sei1alice")
           FeeAuto "" [{| denom := "usei"; amount := "10000" |}]).
  run_mock.
Defined.
